(** * Loan calculator backend (app.py): validation rules and EMI computation

    A shallow embedding of [src/app.py] and the properties of its two
    computational endpoints.

    Modelling conventions.
    - A Python [str] is a Rocq [string]: a sequence of code points below 256.
      On that range the regex class [\d] is exactly [0-9].
    - A request body is a JSON object, a finite map from keys to JSON values
      ([gmap string json]); [data.get(k, d)] is a lookup with a default.
    - Exceptions are explicit: a computation yields [Returns v] or [Raises e].
    - Python's [float] is modelled twice.  Module [Emi] computes over exact
      rationals ([Q]): the arithmetic of the formulas without the rounding
      error of binary64, with [round(x, 2)] as rounding to the nearest
      hundredth, ties to even.  Module [Binary64] computes the installment
      over IEEE binary64 ([PrimFloat]), where the rounding error itself
      decides what the program does. *)

From Stdlib Require Import ZArith QArith Qround Qabs Qpower Lqa Lia.
From Stdlib Require Import Bool List String Ascii Floats.
From stdpp Require Import gmap strings.
Import ListNotations.

Set Warnings "-inexact-float".

(** ** Python values and exceptions *)

Module Py.

Inductive exn : Set :=
  | TypeError
  | ValueError
  | ZeroDivisionError
  | OverflowError.

Inductive outcome (A : Type) : Type :=
  | Returns (a : A)
  | Raises (e : exn).
Arguments Returns {A} a.
Arguments Raises {A} e.

Definition bind {A B : Type} (c : outcome A) (k : A -> outcome B) : outcome B :=
  match c with
  | Returns a => k a
  | Raises e => Raises e
  end.

Notation "'let!' x ':=' c 'in' k" := (bind c (fun x => k))
  (at level 10, x name, c at level 100, k at level 200).

(** A JSON value as [request.json] delivers it.  Arrays and objects carry no
    payload: every use below only converts a field to a number or a string
    and fails on both alike. *)
Inductive json : Type :=
  | JNull
  | JBool (b : bool)
  | JInt (z : Z)
  | JFloat (q : Q)
  | JStr (s : string)
  | JArray
  | JObject.

Abbreviation dict := (gmap string json).

(** [data.get(key, default)] *)
Definition get (data : dict) (key : string) (dflt : json) : json :=
  match data !! key with
  | Some v => v
  | None => dflt
  end.

(** The text-to-number grammar of the builtins [float] and [int] belongs to
    the interpreter; it is a parameter of the model. *)
Class Builtins : Type := {
  float_of_str : string -> outcome Q;
  int_of_str : string -> outcome Z
}.

(** [float(v)] *)
Definition py_float `{Builtins} (v : json) : outcome Q :=
  match v with
  | JInt z => Returns (inject_Z z)
  | JFloat q => Returns q
  | JBool b => Returns (if b then 1%Q else 0%Q)
  | JStr s => float_of_str s
  | JNull | JArray | JObject => Raises TypeError
  end.

(** [int(v)]: a float is truncated towards zero. *)
Definition py_int `{Builtins} (v : json) : outcome Z :=
  match v with
  | JInt z => Returns z
  | JFloat q => Returns (Z.quot (Qnum q) (Zpos (Qden q)))
  | JBool b => Returns (if b then 1%Z else 0%Z)
  | JStr s => int_of_str s
  | JNull | JArray | JObject => Raises TypeError
  end.

(** [v == s] for a string literal [s] *)
Definition eq_str (v : json) (s : string) : bool :=
  match v with
  | JStr t => String.eqb t s
  | _ => false
  end.

(** [v in [s1, s2, ...]] for string literals *)
Definition in_strs (v : json) (l : list string) : bool :=
  existsb (eq_str v) l.

(** [f"{v}"]; only ever applied to a value that compared equal to a string. *)
Definition format (v : json) : string :=
  match v with
  | JStr s => s
  | _ => ""
  end.

(** What a handler puts in a JSON response where the source has a string:
    a literal of the program, or [str(e)] of a caught exception, whose
    wording is the interpreter's. *)
Inductive text : Type :=
  | Lit (s : string)
  | StrOf (e : exn).

End Py.

(** ** The regular expression of [validate_cnic] *)

Module Re.

(** The constructs the pattern uses. *)
Inductive re : Type :=
  | Bol                       (* ^ *)
  | Eol                       (* $ *)
  | Digit                     (* \d *)
  | Chr (c : ascii)           (* a literal character *)
  | Rep (n : nat) (r : re)    (* r{n} *)
  | Seq (r1 r2 : re).

Definition newline : ascii := ascii_of_nat 10.

Definition is_digit (c : ascii) : bool :=
  let n := nat_of_ascii c in (48 <=? n)%nat && (n <=? 57)%nat.

(** [$] without [re.MULTILINE] holds at the end of the string and just
    before a newline that is the last character. *)
Definition at_eol (s : string) : bool :=
  match s with
  | EmptyString => true
  | String c EmptyString => Ascii.eqb c newline
  | _ => false
  end.

Definition cont : Type := bool -> string -> bool.

Fixpoint times (n : nat) (m : bool -> string -> cont -> bool)
    (start : bool) (s : string) (k : cont) : bool :=
  match n with
  | O => k start s
  | S n' => m start s (fun start' s' => times n' m start' s' k)
  end.

(** [matches r start s k]: [r] matches a prefix of [s] and the continuation
    accepts the rest; [start] tells whether [s] begins at position 0. *)
Fixpoint matches (r : re) (start : bool) (s : string) (k : cont) : bool :=
  match r with
  | Bol => start && k start s
  | Eol => at_eol s && k start s
  | Digit =>
      match s with
      | String c s' => is_digit c && k false s'
      | EmptyString => false
      end
  | Chr a =>
      match s with
      | String c s' => Ascii.eqb c a && k false s'
      | EmptyString => false
      end
  | Rep n r' => times n (matches r') start s k
  | Seq r1 r2 => matches r1 start s (fun start' s' => matches r2 start' s' k)
  end.

(** [bool(re.match(r, s))]: the match is anchored at position 0 and need not
    reach the end of [s]. *)
Definition re_match (r : re) (s : string) : bool :=
  matches r true s (fun _ _ => true).

End Re.

(** ** Validation: [validate_cnic], [validate_loan] and [/api/validate] *)

Module Validation.
Import Py Re.

Definition LOAN_TYPES : list string :=
  ["Home"; "Car"; "Business"; "Education"; "Agriculture"; "Dairy"].

(** [r'^\d{5}-\d{7}-\d{1}$'] *)
Definition cnic_pattern : re :=
  Seq Bol (Seq (Rep 5 Digit) (Seq (Chr "-") (Seq (Rep 7 Digit)
    (Seq (Chr "-") (Seq (Rep 1 Digit) Eol))))).

(** [re.match] refuses anything but a string. *)
Definition validate_cnic (cnic : json) : outcome bool :=
  match cnic with
  | JStr s => Returns (re_match cnic_pattern s)
  | _ => Raises TypeError
  end.

Definition cnic_error : string := "Invalid CNIC format. Use: XXXXX-XXXXXXX-X".

Section WithBuiltins.
Context `{Builtins}.

Definition validate_loan (data : dict) : outcome (list string) :=
  let errors : list string := [] in
  let! ok := validate_cnic (get data "cnic" (JStr "")) in
  let errors := if negb ok then errors ++ [cnic_error] else errors in
  let loan_type := get data "loanType" (JStr "Home") in
  let! age := py_int (get data "age" (JInt 0)) in
  if in_strs loan_type ["Home"; "Car"] then
    Returns (if (age <? 22)%Z || (age >? 60)%Z
             then errors ++ ["Age must be 22-60 years for " +:+ format loan_type +:+ " loans"]
             else errors)
  else if eq_str loan_type "Business" then
    Returns (if (age <? 22)%Z || (age >? 70)%Z
             then errors ++ ["Age must be 22-70 years for Business loans"]
             else errors)
  else if eq_str loan_type "Education" then
    let! student_age := py_int (get data "studentAge" (JInt 0)) in
    Returns (if (student_age <? 18)%Z || (student_age >? 50)%Z
             then errors ++ ["Student age must be 18-50 years"]
             else errors)
  else if in_strs loan_type ["Agriculture"; "Dairy"] then
    let! land_acres := py_float (get data "landAcres" (JInt 0)) in
    Returns (if Qle_bool land_acres 13
             then errors ++ [format loan_type +:+ " loans require more than 13 acres"]
             else errors)
  else
    Returns errors.

(** The JSON body of [/api/validate]. *)
Record ValidationResult : Type := {
  isValid : bool;
  errors : list text
}.

(** The handler: status code and body. *)
Definition validate (data : dict) : Z * ValidationResult :=
  match validate_loan data with
  | Returns errs =>
      (200%Z, {| isValid := (length errs =? 0)%nat; errors := map Lit errs |})
  | Raises e =>
      (400%Z, {| isValid := false; errors := [StrOf e] |})
  end.

End WithBuiltins.

(** A loan application with every field of the right type, each possibly
    absent, and the request body that carries it. *)
Record LoanApplication : Type := {
  cnic : option string;
  loanType : option string;
  age : option Z;
  studentAge : option Z;
  landAcres : option Q
}.

Definition put (key : string) (v : option json) (data : dict) : dict :=
  match v with
  | Some x => <[key := x]> data
  | None => data
  end.

Definition to_request (a : LoanApplication) : dict :=
  put "cnic" (JStr <$> cnic a)
    (put "loanType" (JStr <$> loanType a)
      (put "age" (JInt <$> age a)
        (put "studentAge" (JInt <$> studentAge a)
          (put "landAcres" (JFloat <$> landAcres a) ∅)))).

(** The two checks of [validate_loan] on the typed fields of an application:
    what each contributes to the list of errors. *)
Definition cnic_errors (c : option string) : list string :=
  if re_match cnic_pattern (default "" c) then [] else [cnic_error].

Definition type_errors (t : option string) (a s : option Z) (l : option Q)
    : list string :=
  let loan_type := default "Home" t in
  let age := default 0%Z a in
  if existsb (String.eqb loan_type) ["Home"; "Car"] then
    if (age <? 22)%Z || (age >? 60)%Z
    then ["Age must be 22-60 years for " +:+ loan_type +:+ " loans"] else []
  else if String.eqb loan_type "Business" then
    if (age <? 22)%Z || (age >? 70)%Z
    then ["Age must be 22-70 years for Business loans"] else []
  else if String.eqb loan_type "Education" then
    let student_age := default 0%Z s in
    if (student_age <? 18)%Z || (student_age >? 50)%Z
    then ["Student age must be 18-50 years"] else []
  else if existsb (String.eqb loan_type) ["Agriculture"; "Dairy"] then
    if Qle_bool (default 0%Q l) 13
    then [loan_type +:+ " loans require more than 13 acres"] else []
  else [].

(** The rule table of the specification (section 4.1), in its own words:
    the six loan types and the condition under which each reports an error;
    [rule_error] is the message the program has for each. *)
Inductive LoanType : Set :=
  | Home | Car | Business | Education | Agriculture | Dairy.

Definition name (t : LoanType) : string :=
  match t with
  | Home => "Home"
  | Car => "Car"
  | Business => "Business"
  | Education => "Education"
  | Agriculture => "Agriculture"
  | Dairy => "Dairy"
  end.

Definition rule_violated (t : LoanType) (age student_age : Z) (land_acres : Q)
    : bool :=
  match t with
  | Home | Car => (age <? 22)%Z || (age >? 60)%Z
  | Business => (age <? 22)%Z || (age >? 70)%Z
  | Education => (student_age <? 18)%Z || (student_age >? 50)%Z
  | Agriculture | Dairy => Qle_bool land_acres 13
  end.

Definition rule_error (t : LoanType) : string :=
  match t with
  | Home => "Age must be 22-60 years for Home loans"
  | Car => "Age must be 22-60 years for Car loans"
  | Business => "Age must be 22-70 years for Business loans"
  | Education => "Student age must be 18-50 years"
  | Agriculture => "Agriculture loans require more than 13 acres"
  | Dairy => "Dairy loans require more than 13 acres"
  end.

(** Entries of a reported list that are the CNIC error. *)
Definition is_cnic_error (e : text) : bool :=
  match e with
  | Lit s => String.eqb s cnic_error
  | StrOf _ => false
  end.

(** The format of the specification, in its own words: five digits, a
    hyphen, seven digits, a hyphen, one digit, and nothing else. *)
Fixpoint strip_digits (n : nat) (s : string) : option string :=
  match n with
  | O => Some s
  | S n' =>
      match s with
      | String c s' => if is_digit c then strip_digits n' s' else None
      | EmptyString => None
      end
  end.

Definition strip_hyphen (s : string) : option string :=
  match s with
  | String c s' => if Ascii.eqb c "-" then Some s' else None
  | EmptyString => None
  end.

Definition cnic_format (s : string) : bool :=
  let rest : option string :=
    s1 ← strip_digits 5 s;
    s2 ← strip_hyphen s1;
    s3 ← strip_digits 7 s2;
    s4 ← strip_hyphen s3;
    strip_digits 1 s4 in
  match rest with
  | Some EmptyString => true
  | _ => false
  end.

End Validation.

(** ** The EMI calculator over exact rationals, and [/api/calculate] *)

Module Emi.
Import Py.
Local Open Scope Q_scope.

(** [x < y] *)
Definition Qlt_bool (x y : Q) : bool := negb (Qle_bool y x).

(** The integer nearest to [x], a tie going to the even one. *)
Definition round_half_even (x : Q) : Z :=
  let f := Qfloor x in
  match Qcompare (x - inject_Z f) (1 # 2) with
  | Lt => f
  | Gt => (f + 1)%Z
  | Eq => if Z.even f then f else (f + 1)%Z
  end.

(** [round(x, 2)] *)
Definition round2 (x : Q) : Q := inject_Z (round_half_even (x * 100)) / 100.

(** [max(0, x)]: the second argument wins only when it is greater. *)
Definition max0 (x : Q) : Q := if Qlt_bool 0 x then x else 0.

(** [x / y] *)
Definition truediv (x y : Q) : outcome Q :=
  if Qeq_bool y 0 then Raises ZeroDivisionError else Returns (x / y).

(** [math.pow(x, n)] for an integer [n] *)
Definition math_pow (x : Q) (n : Z) : outcome Q :=
  if Qeq_bool x 0 && (n <? 0)%Z then Raises ValueError else Returns (x ^ n).

(** [range(a, b)] *)
Definition range (a b : Z) : list Z :=
  map (fun i => (a + Z.of_nat i)%Z) (seq 0 (Z.to_nat (b - a))).

Record ScheduleRow : Type := {
  month : Z;
  emi : Q;
  principal : Q;
  interest : Q;
  balance : Q
}.

Record EmiResult : Type := {
  monthlyEMI : Q;
  totalInterest : Q;
  totalPayable : Q;
  schedule : list ScheduleRow;
  tenure : Z
}.

(** The [for] loop of [calculate_emi]: one row per month, the remaining
    balance carried from one iteration to the next. *)
Fixpoint amortize (monthly_rate monthly_emi : Q) (months : list Z)
    (remaining_balance : Q) : list ScheduleRow :=
  match months with
  | [] => []
  | month :: rest =>
      let interest_payment := remaining_balance * monthly_rate in
      let principal_payment := monthly_emi - interest_payment in
      let remaining_balance := remaining_balance - principal_payment in
      {| month := month;
         emi := round2 monthly_emi;
         principal := round2 principal_payment;
         interest := round2 interest_payment;
         balance := round2 (max0 remaining_balance) |}
      :: amortize monthly_rate monthly_emi rest remaining_balance
  end.

Definition calculate_emi (principal annual_rate : Q) (tenure_months : Z)
    : outcome EmiResult :=
  let monthly_rate := annual_rate / 12 / 100 in
  let! monthly_emi :=
    if Qeq_bool monthly_rate 0 then
      truediv principal (inject_Z tenure_months)
    else
      let! grown := math_pow (1 + monthly_rate) tenure_months in
      let numerator := principal * monthly_rate * grown in
      let! grown' := math_pow (1 + monthly_rate) tenure_months in
      let denominator := grown' - 1 in
      truediv numerator denominator in
  let total_payable := monthly_emi * inject_Z tenure_months in
  let total_interest := total_payable - principal in
  let schedule :=
    amortize monthly_rate monthly_emi
      (range 1 (Z.min (tenure_months + 1) 13)) principal in
  Returns {| monthlyEMI := round2 monthly_emi;
             totalInterest := round2 total_interest;
             totalPayable := round2 total_payable;
             schedule := schedule;
             tenure := tenure_months |}.

(** The JSON body of [/api/calculate]: the result object, or an object with
    the single key [error]. *)
Inductive body : Type :=
  | Result (r : EmiResult)
  | Error (t : text).


Definition amount_error : string := "Loan amount must be greater than 0".
Definition rate_error : string := "Interest rate must be between 0 and 100".
Definition tenure_error : string := "Loan tenure must be greater than 0".

(** The handler: status code and body. *)
Definition calculate `{Builtins} (data : dict) : Z * body :=
  let attempt : outcome (Z * body) :=
    let! principal := py_float (get data "loanAmount" (JInt 0)) in
    let! annual_rate := py_float (get data "interestRate" (JInt 0)) in
    let! tenure := py_int (get data "loanTenure" (JInt 0)) in
    if Qle_bool principal 0 then
      Returns (400%Z, Error (Lit amount_error))
    else if Qlt_bool annual_rate 0 || Qlt_bool 100 annual_rate then
      Returns (400%Z, Error (Lit rate_error))
    else if (tenure <=? 0)%Z then
      Returns (400%Z, Error (Lit tenure_error))
    else
      let! result := calculate_emi principal annual_rate tenure in
      Returns (200%Z, Result result) in
  match attempt with
  | Returns response => response
  | Raises e => (400%Z, Error (StrOf e))
  end.

(** The installment of the specification (section 4.2, steps 1 to 3), in
    its own words: the flat share when the monthly rate is zero, the
    amortizing-loan formula otherwise. *)
Definition installment (principal annual_rate : Q) (tenure_months : Z) : Q :=
  let monthly_rate := annual_rate / 12 / 100 in
  if Qeq_bool monthly_rate 0 then principal / inject_Z tenure_months
  else principal * monthly_rate * (1 + monthly_rate) ^ tenure_months
       / ((1 + monthly_rate) ^ tenure_months - 1).


(** The first three statements of the handler: the fields as numbers, or
    the exception of the first conversion that fails. *)
Definition coerced `{Builtins} (data : dict) : outcome (Q * Q * Z) :=
  let! principal := py_float (get data "loanAmount" (JInt 0)) in
  let! annual_rate := py_float (get data "interestRate" (JInt 0)) in
  let! tenure := py_int (get data "loanTenure" (JInt 0)) in
  Returns (principal, annual_rate, tenure).



End Emi.

(** ** The installment over IEEE binary64 *)

Module Binary64.
Import Py.
Local Open Scope float_scope.

(** An [int] operand of a float operation is converted to the nearest
    double; one beyond the range of doubles is refused. *)
Definition float_of_int (n : Z) : outcome float :=
  let x := SF2Prim (binary_normalize prec emax n 0 false) in
  if is_infinity x then Raises OverflowError else Returns x.

(** [x / y] on floats *)
Definition truediv (x y : float) : outcome float :=
  if y =? 0 then Raises ZeroDivisionError else Returns (x / y).

(** The value of [y] when it is a whole number. *)
Definition integer_value (y : float) : option Z :=
  match Prim2SF y with
  | S754_zero _ => Some 0%Z
  | S754_finite s m e =>
      let sign := if s then (-1)%Z else 1%Z in
      match e with
      | Z0 => Some (sign * Zpos m)%Z
      | Zpos k => Some (sign * (Zpos m * Z.pow_pos 2 k))%Z
      | Zneg k =>
          let d := Z.pow_pos 2 k in
          if (Zpos m mod d =? 0)%Z then Some (sign * (Zpos m / d))%Z else None
      end
  | _ => None
  end.

(** [fmod(fabs(y), 2.0) == 1.0] for a finite [y] *)
Definition is_odd_integer (y : float) : bool :=
  match integer_value y with
  | Some n => Z.odd n
  | None => false
  end.

(** The exact value of a finite double. *)
Definition to_Q (x : float) : Q :=
  match Prim2SF x with
  | S754_finite s m e =>
      ((if s then - (1) else 1) * inject_Z (Zpos m) * 2 ^ e)%Q
  | _ => 0%Q
  end.

Section Libm.

(** The C library's [pow], which [math.pow] calls on finite arguments. *)
Variable pow : float -> float -> float.

(** [math.pow(x, y)] as CPython's [math_pow_impl] computes it. *)
Definition math_pow (x y : float) : outcome float :=
  if is_finite x && is_finite y then
    let r := pow x y in
    if is_nan r then Raises ValueError
    else if is_infinity r then
      if x =? 0 then Raises ValueError else Raises OverflowError
    else Returns r
  else if is_nan x then Returns (if y =? 0 then 1 else x)
  else if is_nan y then Returns (if x =? 1 then 1 else y)
  else if is_infinity x then
    let odd_y := is_finite y && is_odd_integer y in
    if 0 <? y then Returns (if odd_y then x else abs x)
    else if y =? 0 then Returns 1
    else Returns (if odd_y then (if x <? 0 then neg_zero else zero) else 0)
  else
    if abs x =? 1 then Returns 1
    else if (0 <? y) && (1 <? abs x) then Returns y
    else if (y <? 0) && (abs x <? 1) then Returns (- y)
    else Returns 0.

(** Lines 50 to 57 of [calculate_emi]: the value bound to [monthly_emi], or
    the exception that ends the call there. *)
Definition monthly_emi (principal annual_rate : float) (tenure_months : Z)
    : outcome float :=
  let monthly_rate := annual_rate / 12 / 100 in
  if monthly_rate =? 0 then
    let! n := float_of_int tenure_months in
    truediv principal n
  else
    let! n := float_of_int tenure_months in
    let! grown := math_pow (1 + monthly_rate) n in
    let numerator := principal * monthly_rate * grown in
    let! grown' := math_pow (1 + monthly_rate) n in
    let denominator := grown' - 1 in
    truediv numerator denominator.

End Libm.

(** A [pow] for whole exponents by repeated multiplication: one function
    that agrees with C's [pow] wherever the latter is exact. *)
Definition pow_by_products (x y : float) : float :=
  match integer_value y with
  | Some Z0 => 1
  | Some (Zpos n) => Pos.iter (fun acc => acc * x) 1 n
  | Some (Zneg n) => 1 / Pos.iter (fun acc => acc * x) 1 n
  | None => nan
  end.

End Binary64.

(** ** Sample interpreter and requests *)

Module Samples.
Import Py.

Fixpoint decimal (acc : Z) (s : string) : option Z :=
  match s with
  | EmptyString => Some acc
  | String c s' =>
      if Re.is_digit c
      then decimal (10 * acc + (Z.of_nat (nat_of_ascii c) - 48))%Z s'
      else None
  end.

Definition numeral (s : string) : outcome Z :=
  match s with
  | EmptyString => Raises ValueError
  | _ => match decimal 0 s with
         | Some z => Returns z
         | None => Raises ValueError
         end
  end.

(** An interpreter that reads plain decimal numerals and refuses any other
    text: enough to run the handlers on the sample requests. *)
Definition plain_numerals : Builtins :=
  {| float_of_str := fun s => let! z := numeral s in Returns (inject_Z z);
     int_of_str := numeral |}.


(** [{"loanAmount": a, "interestRate": r, "loanTenure": n}] *)
Definition emi_request (a r n : Z) : dict :=
  <["loanAmount" := JInt a]>
    (<["interestRate" := JInt r]> (<["loanTenure" := JInt n]> ∅)).

End Samples.

(** * Properties of the validator *)

Section CnicFacts.
Import Py Re Validation.








End CnicFacts.

Section ValidationFacts.
Import Py Re Validation.
Context `{Builtins}.

Lemma get_to_request (a : LoanApplication) :
  get (to_request a) "cnic" (JStr "") = JStr (default "" (cnic a)) /\
  get (to_request a) "loanType" (JStr "Home") = JStr (default "Home" (loanType a)) /\
  get (to_request a) "age" (JInt 0) = JInt (default 0%Z (age a)) /\
  get (to_request a) "studentAge" (JInt 0) = JInt (default 0%Z (studentAge a)) /\
  py_float (get (to_request a) "landAcres" (JInt 0))
    = Returns (default 0%Q (landAcres a)).
Proof.
  destruct a as [c t ag sa la]; unfold to_request, get, put; simpl.
  destruct c, t, ag, sa, la; simpl; repeat split; by simplify_map_eq.
Qed.

(** On a well-typed application [validate_loan] returns, and its list is
    what the CNIC check reports followed by what the type check reports. *)
Lemma validate_loan_typed (a : LoanApplication) :
  validate_loan (to_request a)
  = Returns (cnic_errors (cnic a)
             ++ type_errors (loanType a) (age a) (studentAge a) (landAcres a)).
Proof.
  destruct (get_to_request a) as (Hc & Ht & Ha & Hs & Hl).
  unfold validate_loan. rewrite Hc, Ht, Ha, Hs, Hl.
  unfold cnic_errors, type_errors, in_strs, eq_str, format. simpl.
  destruct (re_match cnic_pattern (default "" (cnic a))); simpl;
    repeat match goal with
           | |- context [if ?b then _ else _] => destruct b; simpl
           end; reflexivity.
Qed.

Lemma type_errors_rule (t : LoanType) (a s : option Z) (l : option Q) :
  type_errors (Some (name t)) a s l
  = if rule_violated t (default 0%Z a) (default 0%Z s) (default 0%Q l)
    then [rule_error t] else [].
Proof. destruct t; reflexivity. Qed.

Lemma type_errors_unrecognized (t : string) (a s : option Z) (l : option Q) :
  ~ In t LOAN_TYPES -> type_errors (Some t) a s l = [].
Proof.
  intros Hnot. unfold type_errors, LOAN_TYPES in *. simpl in *.
  repeat match goal with
         | |- context [String.eqb t ?lit] =>
             destruct (String.eqb_spec t lit); [exfalso; apply Hnot; subst; tauto |]
         end.
  reflexivity.
Qed.

(** C5: every application is judged by the rule of its loan type, and by
    that rule alone.  For each of the six types the list returned is the
    outcome of the CNIC check followed by the type's error exactly when the
    rule of the specification's table is violated, an absent age or student
    age read as 0 and an absent acreage as 0.0.  A Home loan fails the age
    check at 21 and passes it at 30; an Agriculture loan fails at 13 acres
    and passes at 13.5. *)
Theorem validate_applies_type_rule :
  (forall (t : LoanType) (c : option string) (a s : option Z) (l : option Q),
     validate_loan (to_request {| cnic := c; loanType := Some (name t);
                                  age := a; studentAge := s; landAcres := l |})
     = Returns (cnic_errors c ++
                if rule_violated t (default 0%Z a) (default 0%Z s) (default 0%Q l)
                then [rule_error t] else [])) /\
  (forall (c : option string) (s : option Z) (l : option Q),
     validate_loan (to_request {| cnic := c; loanType := Some "Home";
                                  age := Some 21%Z; studentAge := s; landAcres := l |})
     = Returns (cnic_errors c ++ ["Age must be 22-60 years for Home loans"]) /\
     validate_loan (to_request {| cnic := c; loanType := Some "Home";
                                  age := Some 30%Z; studentAge := s; landAcres := l |})
     = Returns (cnic_errors c ++ [])) /\
  (forall (c : option string) (a s : option Z),
     validate_loan (to_request {| cnic := c; loanType := Some "Agriculture";
                                  age := a; studentAge := s; landAcres := Some 13%Q |})
     = Returns (cnic_errors c ++ ["Agriculture loans require more than 13 acres"]) /\
     validate_loan (to_request {| cnic := c; loanType := Some "Agriculture";
                                  age := a; studentAge := s; landAcres := Some 13.5%Q |})
     = Returns (cnic_errors c ++ [])).
Proof.
  split; [| split].
  - intros t c a s l. rewrite validate_loan_typed. simpl.
    by rewrite type_errors_rule.
  - intros c s l. split; by rewrite validate_loan_typed.
  - intros c a s. split; by rewrite validate_loan_typed.
Qed.

(** C7: the CNIC check and the type check are evaluated independently and
    neither cuts the other short.  The list returned is what the first
    reports from the [cnic] field alone, followed by what the second reports
    from the other fields alone; an application failing both gets both
    errors, in that order; and the response has [isValid] true exactly when
    its list of errors is empty. *)
Theorem validate_accumulates_errors :
  (forall a : LoanApplication,
     validate_loan (to_request a)
     = Returns (cnic_errors (cnic a)
                ++ type_errors (loanType a) (age a) (studentAge a) (landAcres a))) /\
  (forall a : LoanApplication,
     validate (to_request a)
     = (200%Z,
        {| isValid :=
             (length (cnic_errors (cnic a)
                      ++ type_errors (loanType a) (age a) (studentAge a) (landAcres a))
              =? 0)%nat;
           errors :=
             map Lit (cnic_errors (cnic a)
                      ++ type_errors (loanType a) (age a) (studentAge a) (landAcres a)) |})) /\
  validate_loan (to_request {| cnic := Some "1234-123456-1"; loanType := Some "Home";
                               age := Some 21%Z; studentAge := None; landAcres := None |})
  = Returns [cnic_error; "Age must be 22-60 years for Home loans"] /\
  (forall data : dict,
     isValid (validate data).2 = true <-> errors (validate data).2 = []).
Proof.
  split; [| split; [| split]].
  - apply validate_loan_typed.
  - intros a. unfold validate. by rewrite validate_loan_typed.
  - by rewrite validate_loan_typed.
  - intros data. unfold validate.
    destruct (validate_loan data) as [[| e errs] | e]; simpl; split; congruence.
Qed.

(** C8: an absent [loanType] is read as Home, so the 22 to 60 age rule
    applies; a [loanType] that is present but is none of the six recognized
    types runs no type check at all, and the CNIC check alone can report. *)
Theorem unrecognized_loan_type_unchecked
    (t : string) (c : option string) (a s : option Z) (l : option Q) :
  ~ In t LOAN_TYPES ->
  validate_loan (to_request {| cnic := c; loanType := None;
                               age := a; studentAge := s; landAcres := l |})
  = validate_loan (to_request {| cnic := c; loanType := Some "Home";
                                 age := a; studentAge := s; landAcres := l |}) /\
  validate_loan (to_request {| cnic := c; loanType := None;
                               age := a; studentAge := s; landAcres := l |})
  = Returns (cnic_errors c ++
             if (default 0 a <? 22)%Z || (default 0 a >? 60)%Z
             then ["Age must be 22-60 years for Home loans"] else []) /\
  validate_loan (to_request {| cnic := c; loanType := Some t;
                               age := a; studentAge := s; landAcres := l |})
  = Returns (cnic_errors c).
Proof.
  intros Hnot. rewrite !validate_loan_typed. simpl.
  rewrite (type_errors_unrecognized t a s l Hnot), app_nil_r.
  repeat split; reflexivity.
Qed.

(** C10: the reported list has at most two entries, at most one of them the
    CNIC error and at most one anything else, and the CNIC error, when it is
    there, comes first. *)
Theorem validate_reports_at_most_two (data : dict) :
  (length (errors (validate data).2) <= 2)%nat /\
  (length (List.filter is_cnic_error (errors (validate data).2)) <= 1)%nat /\
  (length (List.filter (fun e => negb (is_cnic_error e)) (errors (validate data).2)) <= 1)%nat /\
  (In (Lit cnic_error) (errors (validate data).2) ->
   hd_error (errors (validate data).2) = Some (Lit cnic_error)).
Proof.
  unfold validate, validate_loan.
  destruct (validate_cnic _) as [ok | e]; simpl;
    [| repeat split; [lia | lia | lia | intros [E | []]; discriminate E]].
  destruct (py_int (get data "age" _)) as [n | e]; simpl;
    [| repeat split; [lia | lia | lia | intros [E | []]; discriminate E]].
  destruct (get data "loanType" _) as [| b | z | q | t | |]; simpl.
  5: { unfold in_strs, eq_str; simpl.
       repeat match goal with
              | |- context [String.eqb t ?lit] =>
                  destruct (String.eqb_spec t lit); subst; simpl
              end;
       repeat match goal with
              | |- context [bind ?c _] => destruct c; simpl
              end;
       destruct ok; simpl;
       repeat match goal with
              | |- context [if ?b then _ else _] => destruct b; simpl
              end;
       repeat split; try lia; auto;
       intros Hin; repeat (destruct Hin as [Hin | Hin]; try discriminate Hin);
       try contradiction. }
  all: destruct ok; simpl; repeat split; try lia; auto;
       intros Hin; repeat (destruct Hin as [Hin | Hin]; try discriminate Hin);
       try contradiction.
Qed.

(** C6 (the code departs from it): the string made of 12345-1234567-1 and a
    newline is not of the format DDDDD-DDDDDDD-D, yet [validate_cnic]
    accepts it and [validate_loan] reports no CNIC error for it.  The two
    strings of the specification behave as it says: 12345-1234567-1 is
    accepted and 1234-123456-1 is refused. *)
Theorem validate_cnic_accepts_trailing_newline :
  cnic_format ("12345-1234567-1" +:+ String newline "") = false /\
  validate_cnic (JStr ("12345-1234567-1" +:+ String newline "")) = Returns true /\
  (forall (t : option string) (a s : option Z) (l : option Q),
     validate_loan
       (to_request {| cnic := Some ("12345-1234567-1" +:+ String newline "");
                      loanType := t; age := a; studentAge := s; landAcres := l |})
     = Returns (type_errors t a s l)) /\
  validate_cnic (JStr "12345-1234567-1") = Returns true /\
  validate_cnic (JStr "1234-123456-1") = Returns false.
Proof.
  repeat split; try reflexivity.
  intros t a s l. by rewrite validate_loan_typed.
Qed.

End ValidationFacts.

(** * Properties of the calculator *)

Section Rounding.
Import Py Emi.
Local Open Scope Q_scope.

Lemma Qlt_bool_iff (x y : Q) : Qlt_bool x y = true <-> x < y.
Proof.
  unfold Qlt_bool. rewrite negb_true_iff.
  destruct (Qle_bool y x) eqn:E.
  - apply Qle_bool_iff in E. split; [discriminate | intros Hlt; lra].
  - split; [intros _ | reflexivity].
    apply Qnot_le_lt. intros Hle. apply Qle_bool_iff in Hle. congruence.
Qed.

Lemma round_half_even_bounds (x : Q) :
  x - (1 # 2) <= inject_Z (round_half_even x) <= x + (1 # 2).
Proof.
  unfold round_half_even.
  pose proof (Qfloor_le x) as Hlo. pose proof (Qlt_floor x) as Hhi.
  rewrite inject_Z_plus in Hhi. change (inject_Z 1) with 1 in Hhi.
  destruct (Qcompare_spec (x - inject_Z (Qfloor x)) (1 # 2)) as [E | E | E].
  - destruct (Z.even (Qfloor x)).
    + lra.
    + rewrite inject_Z_plus. change (inject_Z 1) with 1. lra.
  - lra.
  - rewrite inject_Z_plus. change (inject_Z 1) with 1. lra.
Qed.







Lemma round_half_even_unique (y : Q) (k : Z) :
  inject_Z k - (1 # 2) < y < inject_Z k + (1 # 2) -> round_half_even y = k.
Proof.
  intros [Hlo Hhi]. pose proof (round_half_even_bounds y) as [Hzlo Hzhi].
  assert (inject_Z (k - 1) < inject_Z (round_half_even y)) as H1.
  { unfold Z.sub. rewrite inject_Z_plus, inject_Z_opp.
    change (inject_Z 1) with 1. lra. }
  assert (inject_Z (round_half_even y) < inject_Z (k + 1)) as H2.
  { rewrite inject_Z_plus. change (inject_Z 1) with 1. lra. }
  rewrite <- Zlt_Qlt in H1, H2. lia.
Qed.

(** Every value strictly within half a hundredth of [k / 100] rounds to it. *)
Lemma round2_unique (x : Q) (k : Z) :
  inject_Z k / 100 - (1 # 200) < x < inject_Z k / 100 + (1 # 200) ->
  round2 x == inject_Z k / 100.
Proof.
  intros [Hlo Hhi]. unfold round2.
  rewrite (round_half_even_unique (x * 100) k); [reflexivity |].
  assert (inject_Z k / 100 * 100 == inject_Z k) as Hk by field.
  split; lra.
Qed.

End Rounding.

Section CalculatorFacts.
Import Py Emi.
Local Open Scope Q_scope.

Lemma Qeq_bool_false (x : Q) : ~ x == 0 -> Qeq_bool x 0 = false.
Proof.
  intros Hx. destruct (Qeq_bool x 0) eqn:E; [| reflexivity].
  apply Qeq_bool_iff in E. contradiction.
Qed.

(** Compound growth over a positive number of periods exceeds 1, so the
    denominator of the formula is positive in exact arithmetic. *)
Lemma growth_gt_1 (r : Q) (n : Z) : 0 < r -> (0 < n)%Z -> 1 < (1 + r) ^ n.
Proof. intros Hr Hn. apply Qpower_1_lt; [lra | exact Hn]. Qed.

Lemma monthly_rate_cases (rate : Q) :
  0 <= rate ->
  (Qeq_bool (rate / 12 / 100) 0 = true /\ rate / 12 / 100 == 0) \/
  (Qeq_bool (rate / 12 / 100) 0 = false /\ 0 < rate / 12 / 100).
Proof.
  intros Hrate.
  assert (0 <= rate / 12 / 100) as Hr.
  { apply Qle_shift_div_l; [lra |]. apply Qle_shift_div_l; lra. }
  destruct (Qeq_bool (rate / 12 / 100) 0) eqn:E.
  - left. split; [reflexivity | by apply Qeq_bool_iff].
  - right. split; [reflexivity |].
    apply Qle_lteq in Hr. destruct Hr as [Hlt | Heq]; [exact Hlt |].
    symmetry in Heq. apply Qeq_bool_iff in Heq. congruence.
Qed.

(** In exact arithmetic the calculator returns on every positive tenure and
    non-negative rate, and its result is built from the installment of the
    specification's formula. *)
Lemma calculate_emi_returns (P rate : Q) (n : Z) :
  0 <= rate -> (0 < n)%Z ->
  calculate_emi P rate n
  = Returns {| monthlyEMI := round2 (installment P rate n);
               totalInterest := round2 (installment P rate n * inject_Z n - P);
               totalPayable := round2 (installment P rate n * inject_Z n);
               schedule := amortize (rate / 12 / 100) (installment P rate n)
                             (range 1 (Z.min (n + 1) 13)) P;
               tenure := n |}.
Proof.
  intros Hrate Hn. unfold calculate_emi, installment.
  destruct (monthly_rate_cases rate Hrate) as [[E Hr] | [E Hr]]; rewrite E.
  - unfold truediv. rewrite Qeq_bool_false; [reflexivity |].
    intros H0. assert (inject_Z 0 < inject_Z n) as Hpos by (rewrite <- Zlt_Qlt; exact Hn).
    change (inject_Z 0) with 0 in Hpos. lra.
  - unfold math_pow.
    assert ((n <? 0)%Z = false) as -> by lia.
    rewrite andb_false_r. simpl. unfold truediv.
    rewrite Qeq_bool_false; [reflexivity |].
    pose proof (growth_gt_1 _ n Hr Hn). lra.
Qed.










(** The values of the example do not depend on the last digits of the
    arithmetic: an error of up to a ten-thousandth in the unrounded
    installment or totals, far above that of binary64, leaves all three
    rounded values unchanged. *)
Lemma example_rounding_stable (d : Q) :
  Qabs d <= 1 # 10000 ->
  round2 (installment 100000 10 12 + d) == 8791.59 /\
  round2 (installment 100000 10 12 * inject_Z 12 + d) == 105499.06 /\
  round2 (installment 100000 10 12 * inject_Z 12 - 100000 + d) == 5499.06.
Proof.
  intros Hd. apply Qabs_Qle_condition in Hd.
  assert (8791.58872 < installment 100000 10 12 < 8791.58873) as He
    by (split; vm_compute; reflexivity).
  change (inject_Z 12) with 12.
  generalize dependent (installment 100000 10 12). intros e He.
  assert (inject_Z 879159 / 100 == 8791.59) as K1 by reflexivity.
  assert (inject_Z 10549906 / 100 == 105499.06) as K2 by reflexivity.
  assert (inject_Z 549906 / 100 == 5499.06) as K3 by reflexivity.
  repeat split.
  - rewrite (round2_unique _ 879159); [exact K1 | split; lra].
  - rewrite (round2_unique _ 10549906); [exact K2 | split; lra].
  - rewrite (round2_unique _ 549906); [exact K3 | split; lra].
Qed.

(** C1 (as amended): for a principal of 100000 at 10 percent a year over 12
    months the calculator returns the installment of the amortizing-loan
    formula rounded to two decimals, 8791.59, and totals computed from the
    unrounded installment: 105499.06 payable and 5499.06 interest. *)
Theorem emi_example_values :
  exists res,
    calculate_emi 100000 10 12 = Returns res /\
    monthlyEMI res == 8791.59 /\
    totalPayable res == 105499.06 /\
    totalInterest res == 5499.06 /\
    monthlyEMI res
    == round2 (100000 * (10 / 12 / 100) * (1 + 10 / 12 / 100) ^ 12
               / ((1 + 10 / 12 / 100) ^ 12 - 1)).
Proof.
  eexists. split.
  - apply calculate_emi_returns; [lra | lia].
  - cbn [monthlyEMI totalPayable totalInterest].
    repeat split; vm_compute; reflexivity.
Qed.

(** C1 as stated fails: the totals returned are two hundredths away from
    105499.08 and 5499.08. *)
Lemma emi_example_totals_differ :
  exists res,
    calculate_emi 100000 10 12 = Returns res /\
    Qabs (totalPayable res - 105499.08) == 2 # 100 /\
    Qabs (totalInterest res - 5499.08) == 2 # 100.
Proof.
  eexists. split.
  - apply calculate_emi_returns; [lra | lia].
  - cbn [totalPayable totalInterest]. split; vm_compute; reflexivity.
Qed.




End CalculatorFacts.

Section Binary64Facts.
Import Py Binary64.
Local Open Scope float_scope.

(** Whenever the monthly rate is not zero but too small to move 1, the
    growth factor is exactly 1 and the division is by zero. *)
Lemma absorbed_rate_divides_by_zero
    (pow : float -> float -> float) (P rate : float) (n : Z) (x : float) :
  pow 1 x = 1 ->
  float_of_int n = Returns x ->
  is_finite x = true ->
  (rate / 12 / 100 =? 0) = false ->
  1 + rate / 12 / 100 = 1 ->
  monthly_emi pow P rate n = Raises ZeroDivisionError.
Proof.
  intros Hpow Hn Hfin Hrate Habsorb. unfold monthly_emi.
  rewrite Hrate, Hn, Habsorb. cbn [bind].
  unfold math_pow. rewrite Hfin, Hpow.
  reflexivity.
Qed.

(** A rate of exactly zero takes the flat branch, on binary64 too. *)
Lemma zero_rate_is_flat
    (pow : float -> float -> float) (P : float) (n : Z) (x : float) :
  float_of_int n = Returns x ->
  (x =? 0) = false ->
  monthly_emi pow P 0 n = Returns (P / x).
Proof.
  intros Hn Hx. unfold monthly_emi.
  replace (0 / 12 / 100 =? 0) with true by reflexivity.
  rewrite Hn. cbn [bind]. unfold truediv. by rewrite Hx.
Qed.

(** C4 (the code departs from it): with a principal of 1000, an annual rate
    of 1e-15, which lies in [0, 100], and a tenure of 12 months, the monthly
    rate is not zero, so the compound branch is taken; there 1 + rate rounds
    to 1, [pow] returns 1 as C requires of pow(1, y), the denominator is 0
    and the division raises ZeroDivisionError. *)
Theorem tiny_rate_divides_by_zero (pow : float -> float -> float) :
  pow 1 12 = 1 ->
  (0 <? 1000) = true /\
  (0 <=? 1e-15) = true /\ (1e-15 <=? 100) = true /\
  (1e-15 / 12 / 100 =? 0) = false /\
  monthly_emi pow 1000 1e-15 12 = Raises ZeroDivisionError.
Proof.
  intros Hpow. repeat split; try reflexivity.
  apply absorbed_rate_divides_by_zero with (x := 12); try reflexivity.
  exact Hpow.
Qed.

Lemma tiny_rate_divides_by_zero_witness :
  (0 <? 1000) = true /\
  (0 <=? 1e-15) = true /\ (1e-15 <=? 100) = true /\
  (1e-15 / 12 / 100 =? 0) = false /\
  monthly_emi pow_by_products 1000 1e-15 12 = Raises ZeroDivisionError.
Proof. apply (tiny_rate_divides_by_zero pow_by_products). reflexivity. Defined.

(** With products for [pow], the binary64 run of the example binds
    [monthly_emi] to 8791.5887230010248, and the doubles handed to
    [round(_, 2)] have exact values that round to 8791.59, 105499.06 and
    5499.06, the values of the exact model. *)
Lemma binary64_example_values :
  monthly_emi pow_by_products 100000 10 12 = Returns 8791.5887230010248 /\
  (Emi.round2 (to_Q 8791.5887230010248) == 8791.59)%Q /\
  (Emi.round2 (to_Q (8791.5887230010248 * 12)) == 105499.06)%Q /\
  (Emi.round2 (to_Q (8791.5887230010248 * 12 - 100000)) == 5499.06)%Q.
Proof. repeat split; vm_compute; reflexivity. Qed.

End Binary64Facts.

Section HandlerFacts.
Import Py Emi.
Context `{Builtins}.
Local Open Scope Q_scope.

(** A conversion that fails ends the request with the exception's text,
    before any range check is made. *)
Lemma calculate_coercion_failure (data : dict) (e : exn) :
  coerced data = Raises e -> calculate data = (400%Z, Error (StrOf e)).
Proof.
  unfold coerced, calculate. intros Hc.
  destruct (py_float (get data "loanAmount" _)) as [p | e1]; cbn [bind] in *;
    [| congruence].
  destruct (py_float (get data "interestRate" _)) as [r | e2]; cbn [bind] in *;
    [| congruence].
  destruct (py_int (get data "loanTenure" _)) as [n | e3]; cbn [bind] in *;
    [discriminate | congruence].
Qed.

Lemma calculate_coerced (data : dict) (p r : Q) (n : Z) :
  coerced data = Returns (p, r, n) ->
  calculate data =
    if Qle_bool p 0 then (400%Z, Error (Lit amount_error))
    else if Qlt_bool r 0 || Qlt_bool 100 r then (400%Z, Error (Lit rate_error))
    else if (n <=? 0)%Z then (400%Z, Error (Lit tenure_error))
    else match calculate_emi p r n with
         | Returns res => (200%Z, Result res)
         | Raises e => (400%Z, Error (StrOf e))
         end.
Proof.
  unfold coerced, calculate. intros Hc.
  destruct (py_float (get data "loanAmount" _)) as [p' | e1]; cbn [bind] in *;
    [| discriminate].
  destruct (py_float (get data "interestRate" _)) as [r' | e2]; cbn [bind] in *;
    [| discriminate].
  destruct (py_int (get data "loanTenure" _)) as [n' | e3]; cbn [bind] in *;
    [| discriminate].
  injection Hc as -> -> ->.
  destruct (Qle_bool p 0); [reflexivity |].
  destruct (Qlt_bool r 0 || Qlt_bool 100 r); [reflexivity |].
  destruct (n <=? 0)%Z; [reflexivity |].
  destruct (calculate_emi p r n); reflexivity.
Qed.

Lemma Qle_bool_false (x y : Q) : y < x -> Qle_bool x y = false.
Proof.
  intros Hlt. destruct (Qle_bool x y) eqn:E; [| reflexivity].
  apply Qle_bool_iff in E. lra.
Qed.

Lemma Qlt_bool_false (x y : Q) : y <= x -> Qlt_bool x y = false.
Proof.
  intros Hle. destruct (Qlt_bool x y) eqn:E; [| reflexivity].
  apply Qlt_bool_iff in E. lra.
Qed.


End HandlerFacts.

Section HandlerCounterexample.
Import Py Emi Samples.
Local Open Scope Q_scope.



End HandlerCounterexample.

(** * The theorems at concrete inputs *)

Section Witnesses.
Import Py Validation Emi Samples.
Local Open Scope Q_scope.

Lemma unrecognized_loan_type_unchecked_witness :
  @validate_loan plain_numerals
    (to_request {| cnic := Some "12345-1234567-1"; loanType := None;
                   age := Some 17%Z; studentAge := None; landAcres := None |})
  = @validate_loan plain_numerals
      (to_request {| cnic := Some "12345-1234567-1"; loanType := Some "Home";
                     age := Some 17%Z; studentAge := None; landAcres := None |}) /\
  @validate_loan plain_numerals
    (to_request {| cnic := Some "12345-1234567-1"; loanType := None;
                   age := Some 17%Z; studentAge := None; landAcres := None |})
  = Returns (cnic_errors (Some "12345-1234567-1") ++
             if (default 0 (Some 17) <? 22)%Z || (default 0 (Some 17) >? 60)%Z
             then ["Age must be 22-60 years for Home loans"] else []) /\
  @validate_loan plain_numerals
    (to_request {| cnic := Some "12345-1234567-1"; loanType := Some "Gold";
                   age := Some 17%Z; studentAge := None; landAcres := None |})
  = Returns (cnic_errors (Some "12345-1234567-1")).
Proof.
  apply (@unrecognized_loan_type_unchecked plain_numerals "Gold").
  unfold LOAN_TYPES. simpl. intuition discriminate.
Defined.




End Witnesses.

(** * Further properties of the calculator *)

Section ScheduleFacts.
Import Py Emi.
Local Open Scope Q_scope.















Lemma amortize_months (r e : Q) (months : list Z) (rem : Q) :
  map month (amortize r e months rem) = months /\
  Forall (fun row => emi row = round2 e) (amortize r e months rem).
Proof.
  revert rem. induction months as [| m ms IH]; intros rem; cbn [amortize map].
  - split; [reflexivity | constructor].
  - destruct (IH (rem - (e - rem * r))) as [Hm He].
    split; [by rewrite Hm | by constructor].
Qed.

Lemma range_from_1 (b : Z) :
  range 1 b = map Z.of_nat (seq 1 (Z.to_nat (b - 1))).
Proof.
  unfold range. rewrite <- seq_shift, map_map.
  apply map_ext. intros i. lia.
Qed.

Lemma calculate_emi_schedule (P rate : Q) (n : Z) (res : EmiResult) :
  calculate_emi P rate n = Returns res ->
  exists e,
    schedule res = amortize (rate / 12 / 100) e (range 1 (Z.min (n + 1) 13)) P /\
    monthlyEMI res = round2 e /\ tenure res = n.
Proof.
  unfold calculate_emi. intros Hc.
  match type of Hc with
  | bind ?c _ = _ => destruct c as [e | x]; cbn [bind] in Hc; [| discriminate]
  end.
  injection Hc as <-. by exists e.
Qed.

(** The rows are the months 1, 2, ... up to min(tenure, 12), in order, and
    each carries the installment reported as [monthlyEMI]; the tenure is
    echoed.  This holds of every result the calculator returns. *)
Theorem schedule_months_in_order (P rate : Q) (n : Z) (res : EmiResult) :
  calculate_emi P rate n = Returns res ->
  map month (schedule res) = map Z.of_nat (seq 1 (Z.to_nat (Z.min n 12))) /\
  Forall (fun row => emi row = monthlyEMI res) (schedule res) /\
  tenure res = n.
Proof.
  intros Hc. destruct (calculate_emi_schedule P rate n res Hc) as (e & -> & -> & ->).
  destruct (amortize_months (rate / 12 / 100) e (range 1 (Z.min (n + 1) 13)) P)
    as [Hm He].
  repeat split; [| exact He].
  rewrite Hm, range_from_1. do 2 f_equal. lia.
Qed.





End ScheduleFacts.

(** * Further properties of the handlers *)

Section RequestFacts.
Import Py Re Validation Emi.
Context `{Builtins}.
Local Open Scope Q_scope.

Lemma get_insert_ne (data : dict) (k key : string) (v d : json) :
  k <> key -> get (<[k := v]> data) key d = get data key d.
Proof. intros Hne. unfold get. by rewrite lookup_insert_ne. Qed.

Lemma get_insert_eq (data : dict) (k : string) (v d : json) :
  get (<[k := v]> data) k d = v.
Proof. unfold get. by rewrite lookup_insert_eq. Qed.

Lemma get_absent (data : dict) (k : string) (d : json) :
  data !! k = None -> get data k d = d.
Proof. intros Hk. unfold get. by rewrite Hk. Qed.

(** [/api/validate] reads five keys and nothing else: any other key of the
    request, whatever it holds, leaves the response unchanged. *)
Theorem validate_ignores_other_keys (data : dict) (k : string) (v : json) :
  ~ In k ["cnic"; "loanType"; "age"; "studentAge"; "landAcres"] ->
  validate (<[k := v]> data) = validate data.
Proof.
  intros Hk. cbn [In] in Hk.
  unfold validate, validate_loan.
  rewrite !get_insert_ne by (intros ->; tauto). reflexivity.
Qed.

(** [studentAge] is read for Education loans only and [landAcres] for
    Agriculture and Dairy loans only: for any other loan type the field may
    hold anything, even a value that cannot be converted, without changing
    the response. *)
Theorem unread_fields_do_not_matter (data : dict) (v : json) :
  (get data "loanType" (JStr "Home") <> JStr "Education" ->
   validate (<["studentAge" := v]> data) = validate data) /\
  (get data "loanType" (JStr "Home") <> JStr "Agriculture" ->
   get data "loanType" (JStr "Home") <> JStr "Dairy" ->
   validate (<["landAcres" := v]> data) = validate data).
Proof.
  split.
  - intros Hne. unfold validate, validate_loan.
    rewrite (get_insert_ne _ "studentAge" "cnic"),
      (get_insert_ne _ "studentAge" "loanType"),
      (get_insert_ne _ "studentAge" "age"),
      (get_insert_ne _ "studentAge" "landAcres") by discriminate.
    destruct (validate_cnic _) as [ok | e]; cbn [bind]; [| reflexivity].
    destruct (py_int (get data "age" _)) as [a | e]; cbn [bind]; [| reflexivity].
    destruct (in_strs _ ["Home"; "Car"]); [reflexivity |].
    destruct (eq_str _ "Business"); [reflexivity |].
    destruct (eq_str _ "Education") eqn:E; [| reflexivity].
    exfalso. apply Hne. unfold eq_str in E.
    destruct (get data "loanType" _); try discriminate.
    by apply String.eqb_eq in E as ->.
  - intros Hne1 Hne2. unfold validate, validate_loan.
    rewrite (get_insert_ne _ "landAcres" "cnic"),
      (get_insert_ne _ "landAcres" "loanType"),
      (get_insert_ne _ "landAcres" "age"),
      (get_insert_ne _ "landAcres" "studentAge") by discriminate.
    destruct (validate_cnic _) as [ok | e]; cbn [bind]; [| reflexivity].
    destruct (py_int (get data "age" _)) as [a | e]; cbn [bind]; [| reflexivity].
    destruct (in_strs _ ["Home"; "Car"]); [reflexivity |].
    destruct (eq_str _ "Business"); [reflexivity |].
    destruct (eq_str _ "Education"); [reflexivity |].
    destruct (in_strs _ ["Agriculture"; "Dairy"]) eqn:E; [| reflexivity].
    exfalso. unfold in_strs, eq_str in E. cbn [existsb] in E.
    destruct (get data "loanType" _); try discriminate.
    apply orb_true_iff in E as [E | E]; [| apply orb_true_iff in E as [E | E]];
      try discriminate; apply String.eqb_eq in E as ->; congruence.
Qed.

(** When [/api/validate] answers 400: exactly when [cnic] is present and
    not a string, or [age] cannot be converted (whatever the loan type), or
    the loan is an Education loan whose [studentAge] cannot be converted, or
    an Agriculture or Dairy loan whose [landAcres] cannot be converted.  In
    every other case the status is 200. *)
Theorem validate_refuses_exactly (data : dict) :
  ((validate data).1 = 400%Z <->
   (forall s, get data "cnic" (JStr "") <> JStr s) \/
   (exists e, py_int (get data "age" (JInt 0)) = Raises e) \/
   (get data "loanType" (JStr "Home") = JStr "Education" /\
    exists e, py_int (get data "studentAge" (JInt 0)) = Raises e) \/
   ((get data "loanType" (JStr "Home") = JStr "Agriculture" \/
     get data "loanType" (JStr "Home") = JStr "Dairy") /\
    exists e, py_float (get data "landAcres" (JInt 0)) = Raises e)) /\
  ((validate data).1 = 200%Z \/ (validate data).1 = 400%Z) /\
  ((validate data).1 = 400%Z ->
   isValid (validate data).2 = false /\ length (errors (validate data).2) = 1%nat).
Proof.
  unfold validate, validate_loan.
  destruct (get data "cnic" (JStr "")) as [| b | z | q | c | |] eqn:Ec;
    cbn [validate_cnic bind].
  1-4,6-7: (split; [split; [intros _; left; intros s; discriminate | reflexivity]
                   | split; [right; reflexivity | intros _; split; reflexivity]]).
  destruct (py_int (get data "age" (JInt 0))) as [a | ea] eqn:Ea; cbn [bind].
  2: { split; [split; [intros _; right; left; eauto | reflexivity]
              | split; [right; reflexivity | intros _; split; reflexivity]]. }
  destruct (get data "loanType" (JStr "Home")) as [| b | z | q | t | |] eqn:Et;
    unfold in_strs, eq_str; cbn [existsb orb].
  1-4,6-7: (split; [split; [discriminate |]
                   | split; [left; reflexivity | discriminate]];
            intros [Hc | [[e He] | [[Ht _] | [[Ht | Ht] _]]]];
            [by destruct (Hc c) | discriminate | discriminate ..]).
  destruct (String.eqb_spec t "Home") as [-> | NHome]; cbn [orb].
  { split; [split; [discriminate |] | split; [left; reflexivity | discriminate]].
    intros [Hc | [[e He] | [[Ht _] | [[Ht | Ht] _]]]];
      [by destruct (Hc c) | discriminate ..]. }
  destruct (String.eqb_spec t "Car") as [-> | NCar]; cbn [orb].
  { split; [split; [discriminate |] | split; [left; reflexivity | discriminate]].
    intros [Hc | [[e He] | [[Ht _] | [[Ht | Ht] _]]]];
      [by destruct (Hc c) | discriminate ..]. }
  destruct (String.eqb_spec t "Business") as [-> | NBus].
  { split; [split; [discriminate |] | split; [left; reflexivity | discriminate]].
    intros [Hc | [[e He] | [[Ht _] | [[Ht | Ht] _]]]];
      [by destruct (Hc c) | discriminate ..]. }
  destruct (String.eqb_spec t "Education") as [-> | NEdu].
  { destruct (py_int (get data "studentAge" (JInt 0))) as [sa | es]; cbn [bind].
    - split; [split; [discriminate |] | split; [left; reflexivity | discriminate]].
      intros [Hc | [[e He] | [[_ [e He]] | [[Ht | Ht] _]]]];
        [by destruct (Hc c) | discriminate ..].
    - split; [split; [intros _; right; right; left; eauto | reflexivity]
             | split; [right; reflexivity | intros _; split; reflexivity]]. }
  destruct (String.eqb_spec t "Agriculture") as [-> | NAgr]; cbn [orb].
  { destruct (py_float (get data "landAcres" (JInt 0))) as [la | el]; cbn [bind].
    - split; [split; [discriminate |] | split; [left; reflexivity | discriminate]].
      intros [Hc | [[e He] | [[Ht _] | [_ [e He]]]]];
        [by destruct (Hc c) | discriminate ..].
    - split; [split; [intros _; right; right; right; eauto | reflexivity]
             | split; [right; reflexivity | intros _; split; reflexivity]]. }
  destruct (String.eqb_spec t "Dairy") as [-> | NDai]; cbn [orb].
  { destruct (py_float (get data "landAcres" (JInt 0))) as [la | el]; cbn [bind].
    - split; [split; [discriminate |] | split; [left; reflexivity | discriminate]].
      intros [Hc | [[e He] | [[Ht _] | [_ [e He]]]]];
        [by destruct (Hc c) | discriminate ..].
    - split; [split; [intros _; right; right; right; eauto | reflexivity]
             | split; [right; reflexivity | intros _; split; reflexivity]]. }
  split; [split; [discriminate |] | split; [left; reflexivity | discriminate]].
  intros [Hc | [[e He] | [[Ht _] | [[Ht | Ht] _]]]];
    [by destruct (Hc c) | discriminate | congruence ..].
Qed.

(** A well-typed application of one of the six loan types is answered 200,
    and is valid exactly when [validate_cnic] accepts its [cnic] (the empty
    string when absent) and the rule of its type is not violated. *)
Theorem typed_application_valid_iff
    (t : LoanType) (c : option string) (a s : option Z) (l : option Q) :
  (validate (to_request {| cnic := c; loanType := Some (name t);
                           age := a; studentAge := s; landAcres := l |})).1
  = 200%Z /\
  (isValid (validate (to_request {| cnic := c; loanType := Some (name t);
                                    age := a; studentAge := s; landAcres := l |})).2
   = true <->
   validate_cnic (JStr (default "" c)) = Returns true /\
   rule_violated t (default 0%Z a) (default 0%Z s) (default 0%Q l) = false).
Proof.
  unfold validate. rewrite validate_loan_typed. cbn [fst snd isValid].
  cbn [cnic loanType age studentAge landAcres].
  rewrite type_errors_rule. unfold cnic_errors, validate_cnic.
  split; [reflexivity |].
  destruct (re_match cnic_pattern (default "" c));
    destruct (rule_violated t _ _ _); cbn; split;
    try discriminate; try tauto; intros [? ?]; congruence.
Qed.

(** [/api/calculate] reads three keys and nothing else: any other key of the
    request, whatever it holds, leaves the response unchanged. *)
Theorem calculate_ignores_other_keys (data : dict) (k : string) (v : json) :
  ~ In k ["loanAmount"; "interestRate"; "loanTenure"] ->
  calculate (<[k := v]> data) = calculate data.
Proof.
  intros Hk. cbn [In] in Hk. unfold calculate.
  rewrite !get_insert_ne by (intros ->; tauto). reflexivity.
Qed.

(** A request that lacks [loanAmount] or [loanTenure] is never answered with
    a result: the absent field counts as 0 and fails its check, unless an
    earlier conversion or check already failed. *)
Theorem missing_amount_or_tenure_is_refused (data : dict) :
  data !! "loanAmount" = None \/ data !! "loanTenure" = None ->
  (calculate data).1 = 400%Z /\ exists t, (calculate data).2 = Error t.
Proof.
  intros Hmiss.
  destruct (coerced data) as [[[p r] n] | e] eqn:Hc.
  2: { rewrite (calculate_coercion_failure data e Hc). eauto. }
  rewrite (calculate_coerced data p r n Hc).
  unfold coerced in Hc.
  destruct (py_float (get data "loanAmount" _)) as [p' | ?] eqn:Hp;
    cbn [bind] in Hc; [| discriminate].
  destruct (py_float (get data "interestRate" _)) as [r' | ?];
    cbn [bind] in Hc; [| discriminate].
  destruct (py_int (get data "loanTenure" _)) as [n' | ?] eqn:Hn;
    cbn [bind] in Hc; [| discriminate].
  injection Hc as -> -> ->.
  destruct Hmiss as [Hm | Hm]; rewrite (get_absent _ _ _ Hm) in *.
  - cbn [py_float] in Hp. injection Hp as <-.
    change (Qle_bool (inject_Z 0) 0) with true. cbn. eauto.
  - cbn [py_int] in Hn. injection Hn as <-.
    destruct (Qle_bool p 0); [cbn; eauto |].
    destruct (Qlt_bool r 0 || Qlt_bool 100 r); cbn; eauto.
Qed.


Lemma quot_below_one (q : Q) :
  - (1) < q < 1 -> Z.quot (Qnum q) (Zpos (Qden q)) = 0%Z.
Proof.
  destruct q as [a b]. unfold Qlt. cbn. intros [Hlo Hhi].
  apply Z.quot_small_iff; lia.
Qed.

(** A fractional [loanTenure] is truncated toward zero before the checks:
    with an amount and a rate that pass theirs, any tenure strictly between
    -1 and 1, such as 0.9, is refused with the tenure error. *)
Theorem fractional_tenure_below_one_is_refused (data : dict) (p r q : Q) :
  py_float (get data "loanAmount" (JInt 0)) = Returns p -> 0 < p ->
  py_float (get data "interestRate" (JInt 0)) = Returns r -> 0 <= r <= 100 ->
  data !! "loanTenure" = Some (JFloat q) -> - (1) < q < 1 ->
  calculate data = (400%Z, Error (Lit tenure_error)).
Proof.
  intros Hp Hpos Hr [Hlo Hhi] Hq Hsmall.
  assert (coerced data = Returns (p, r, 0%Z)) as Hc.
  { unfold coerced, get at 3. rewrite Hp, Hr, Hq. cbn [bind py_int].
    by rewrite (quot_below_one q Hsmall). }
  rewrite (calculate_coerced data p r 0 Hc).
  rewrite (Qle_bool_false _ _ Hpos).
  by rewrite (Qlt_bool_false _ _ Hlo), (Qlt_bool_false _ _ Hhi).
Qed.

End RequestFacts.

(** * Further properties of the installment on binary64 *)

Section Binary64Edges.
Import Py Binary64.
Local Open Scope float_scope.

(** On binary64, any rate that is not zero after the division by 1200 but
    vanishes when added to 1 makes the growth factor exactly 1 and the call
    raise ZeroDivisionError, whatever the principal and the tenure. *)
Theorem vanishing_rate_raises
    (pow : float -> float -> float) (P rate : float) (n : Z) (x : float) :
  pow 1 x = 1 ->
  float_of_int n = Returns x ->
  is_finite x = true ->
  (rate / 12 / 100 =? 0) = false ->
  1 + rate / 12 / 100 = 1 ->
  math_pow pow (1 + rate / 12 / 100) x = Returns 1 /\
  monthly_emi pow P rate n = Raises ZeroDivisionError.
Proof.
  intros Hpow Hn Hfin Hrate Habsorb. split.
  - rewrite Habsorb. unfold math_pow. rewrite Hfin, Hpow. reflexivity.
  - by apply absorbed_rate_divides_by_zero with (x := x).
Qed.

(** On binary64 the tenure has no upper bound, so the growth factor can
    overflow: when [pow] returns an infinity for a finite nonzero base, the
    call raises OverflowError instead of returning a result. *)
Theorem overflowing_growth_raises
    (pow : float -> float -> float) (P rate : float) (n : Z) (x : float) :
  float_of_int n = Returns x ->
  is_finite x = true ->
  (rate / 12 / 100 =? 0) = false ->
  is_finite (1 + rate / 12 / 100) = true ->
  (1 + rate / 12 / 100 =? 0) = false ->
  is_nan (pow (1 + rate / 12 / 100) x) = false ->
  is_infinity (pow (1 + rate / 12 / 100) x) = true ->
  monthly_emi pow P rate n = Raises OverflowError.
Proof.
  intros Hn Hfin Hrate Hbase Hnz Hnan Hinf. unfold monthly_emi.
  rewrite Hrate, Hn. cbn [bind]. unfold math_pow.
  rewrite Hbase, Hfin. cbn [andb]. rewrite Hnan, Hinf, Hnz. reflexivity.
Qed.

Lemma vanishing_rate_raises_witness :
  math_pow pow_by_products (1 + 1e-14 / 12 / 100) 360 = Returns 1 /\
  monthly_emi pow_by_products 250000 1e-14 360 = Raises ZeroDivisionError.
Proof.
  apply (vanishing_rate_raises pow_by_products 250000 1e-14 360 360);
    reflexivity.
Defined.

Lemma overflowing_growth_raises_witness :
  monthly_emi pow_by_products 1000 100 10000 = Raises OverflowError.
Proof.
  apply (overflowing_growth_raises pow_by_products 1000 100 10000 10000);
    vm_compute; reflexivity.
Defined.

End Binary64Edges.

(** * The further properties at concrete inputs *)

Section Instances.
Import Py Validation Emi Samples.
Local Open Scope Q_scope.

Lemma schedule_months_in_order_witness :
  let res :=
    {| monthlyEMI := round2 (installment 100000 10 24);
       totalInterest := round2 (installment 100000 10 24 * inject_Z 24 - 100000);
       totalPayable := round2 (installment 100000 10 24 * inject_Z 24);
       schedule := amortize (10 / 12 / 100) (installment 100000 10 24)
                     (range 1 (Z.min (24 + 1) 13)) 100000;
       tenure := 24 |} in
  map month (schedule res) = map Z.of_nat (seq 1 (Z.to_nat (Z.min 24 12))) /\
  Forall (fun row => emi row = monthlyEMI res) (schedule res) /\
  tenure res = 24%Z.
Proof.
  apply (schedule_months_in_order 100000 10 24).
  apply calculate_emi_returns; [lra | lia].
Defined.





Lemma validate_ignores_other_keys_witness :
  @validate plain_numerals
    (<["fullName" := JStr "A. Khan"]>
       (to_request {| cnic := Some "12345-1234567-1"; loanType := Some "Car";
                      age := Some 40%Z; studentAge := None; landAcres := None |}))
  = @validate plain_numerals
      (to_request {| cnic := Some "12345-1234567-1"; loanType := Some "Car";
                     age := Some 40%Z; studentAge := None; landAcres := None |}).
Proof.
  apply (@validate_ignores_other_keys plain_numerals).
  cbn [In]. intuition discriminate.
Defined.

Lemma unread_fields_do_not_matter_witness :
  @validate plain_numerals
    (<["studentAge" := JNull]>
       (to_request {| cnic := Some "12345-1234567-1"; loanType := Some "Car";
                      age := Some 40%Z; studentAge := None; landAcres := None |}))
  = @validate plain_numerals
      (to_request {| cnic := Some "12345-1234567-1"; loanType := Some "Car";
                     age := Some 40%Z; studentAge := None; landAcres := None |}).
Proof.
  apply (proj1 (@unread_fields_do_not_matter plain_numerals _ JNull)).
  vm_compute. discriminate.
Defined.

Lemma calculate_ignores_other_keys_witness :
  @calculate plain_numerals (<["currency" := JStr "PKR"]> (emi_request 100000 10 12))
  = @calculate plain_numerals (emi_request 100000 10 12).
Proof.
  apply (@calculate_ignores_other_keys plain_numerals).
  cbn [In]. intuition discriminate.
Defined.

Lemma missing_amount_or_tenure_is_refused_witness :
  (@calculate plain_numerals (<["loanAmount" := JInt 100000]> ∅)).1 = 400%Z /\
  exists t, (@calculate plain_numerals (<["loanAmount" := JInt 100000]> ∅)).2
            = Error t.
Proof.
  apply (@missing_amount_or_tenure_is_refused plain_numerals).
  right. reflexivity.
Defined.


Lemma fractional_tenure_below_one_is_refused_witness :
  @calculate plain_numerals
    (<["loanAmount" := JInt 1000]>
       (<["interestRate" := JInt 10]> (<["loanTenure" := JFloat (9 # 10)]> ∅)))
  = (400%Z, Error (Lit tenure_error)).
Proof.
  apply (@fractional_tenure_below_one_is_refused plain_numerals _
           (inject_Z 1000) (inject_Z 10) (9 # 10));
    try reflexivity; split; reflexivity || discriminate.
Defined.

End Instances.
